(** * The development-server configuration of rsblox ([vite.config.ts])

    The repository's only source file exports, through vite's [defineConfig],
    an asynchronous arrow function of no parameters.  Its body is one object
    literal whose single effectful sub-expression is the call [vue()].

    The two imports, [defineConfig] (from "vite") and [vue] (from
    "@vitejs/plugin-vue"), are not part of the repository: they are parameters
    of the development.  [vue] is an arbitrary synchronous JavaScript function
    (it may change the world and it may throw); [defineConfig] is assumed, where
    a statement needs it, to hand back the value it is given. *)

From Stdlib Require Import ZArith List String Bool.
Import ListNotations.
Local Open Scope string_scope.

(** ** The fragment of the JavaScript runtime the file exercises *)

Section Runtime.

  (** Values a [throw] can carry. *)
  Variable Err : Type.
  (** Everything outside the value a call returns: module and process state,
      the file system, the I/O performed so far. *)
  Variable World : Type.

(** How the evaluation of an expression ends. *)
Inductive Completion (A : Type) : Type :=
| Normal (a : A)
| Throw (e : Err).

(** A synchronous call: it runs to its end against the world. *)
Definition Sync (A : Type) : Type := World -> World * Completion A.

(** The promise an [async] function hands back.  It is settled, or its body
    is parked at an [await] and [resume] runs it on from a later world. *)
#[warnings="-register-all"]
Inductive Promise (A : Type) : Type :=
| Fulfilled (a : A)
| Rejected (e : Err)
| Pending (resume : World -> World * Promise A).

(** The body of an [async] function: run from a world up to its end or its
    first suspension. *)
Definition Async (A : Type) : Type := World -> World * Promise A.

Definition ret {A : Type} (a : A) : Async A :=
  fun w => (w, Fulfilled A a).

(** A synchronous call made from an [async] body: a normal completion goes
    on, an exception rejects the promise with the value thrown. *)
Definition call {A : Type} (f : Sync A) : Async A :=
  fun w =>
    let (w', c) := f w in
    (w', match c with
         | Normal _ a => Fulfilled A a
         | Throw _ e => Rejected A e
         end).

Fixpoint continue_with {A B : Type} (p : Promise A) (f : A -> Async B)
    (w : World) : World * Promise B :=
  match p with
  | Fulfilled _ a => f a w
  | Rejected _ e => (w, Rejected B e)
  | Pending _ k =>
      (w, Pending B (fun w1 => let (w2, p') := k w1 in continue_with p' f w2))
  end.

Definition bind {A B : Type} (m : Async A) (f : A -> Async B) : Async B :=
  fun w => let (w1, p) := m w in continue_with p f w1.

(** [await p]: the body always yields to the job queue, also when [p] is
    settled already. *)
Definition await {A : Type} (p : Promise A) : Async A :=
  fun w => (w, Pending A (fun w1 => (w1, p))).

Definition is_settled {A : Type} (p : Promise A) : bool :=
  match p with
  | Pending _ _ => false
  | _ => true
  end.

(** The host's side of [await f(...)]: resume a pending promise, at most
    [jobs] times. *)
Fixpoint run_jobs {A : Type} (jobs : nat) (w : World) (p : Promise A)
    : World * Promise A :=
  match jobs, p with
  | S n, Pending _ k => let (w1, p1) := k w in run_jobs n w1 p1
  | _, _ => (w, p)
  end.

(** Calling a function binds its formal parameters to the arguments in
    order; a missing argument is [undefined] ([None]), surplus arguments are
    dropped. *)
Fixpoint bind_params {V : Type} (params : list string) (args : list V)
    : list (string * option V) :=
  match params with
  | [] => []
  | x :: ps =>
      match args with
      | [] => (x, None) :: bind_params ps []
      | a :: rest => (x, Some a) :: bind_params ps rest
      end
  end.

(** [async (params) => body]. *)
Definition async_arrow {V A : Type} (params : list string)
    (body : list (string * option V) -> Async A) : list V -> Async A :=
  fun args => body (bind_params params args).

End Runtime.

Arguments Normal {Err A} a.
Arguments Throw {Err A} e.
Arguments Fulfilled {Err World A} a.
Arguments Rejected {Err World A} e.
Arguments Pending {Err World A} resume.
Arguments ret {Err World A} a w.
Arguments call {Err World A} f w.
Arguments continue_with {Err World A B} p f w.
Arguments bind {Err World A B} m f w.
Arguments await {Err World A} p w.
Arguments is_settled {Err World A} p.
Arguments run_jobs {Err World A} jobs w p.
Arguments bind_params {V} params args.
Arguments async_arrow {Err World V A} params body args w.

Notation "x <- m ;; k" := (bind m (fun x => k))
  (at level 61, m at next level, right associativity).

(** ** The configuration object and the exported factory *)

Section Provider.

  Variable Err : Type.
  Variable World : Type.
  (** The descriptor [vue()] builds; the bundler alone looks inside it. *)
  Variable Plugin : Type.
  (** The options object [vue] accepts. *)
  Variable Options : Type.
  (** What the build tool passes when it calls the export (command, mode). *)
  Variable ConfigEnv : Type.

(** An entry of [plugins]: vite takes a descriptor, or a promise of one that
    it awaits while resolving the configuration. *)
Inductive PluginOption : Type :=
| PluginValue (p : Plugin)
| PluginDeferred (d : Promise Err World Plugin).

Record WatchOptions : Type := { ignored : list string }.

Record ServerOptions : Type := {
  port : Z;
  strictPort : bool;
  watch : WatchOptions
}.

Record UserConfig : Type := {
  plugins : list PluginOption;
  clearScreen : bool;
  server : ServerOptions
}.

Definition is_deferred (o : PluginOption) : bool :=
  match o with
  | PluginValue _ => false
  | PluginDeferred _ => true
  end.

(** No entry of the configuration is left for the bundler to await. *)
Definition fully_resolved (c : UserConfig) : bool :=
  forallb (fun o => negb (is_deferred o)) (plugins c).

(** A configuration given as a function of the environment. *)
Definition UserConfigFn : Type := list ConfigEnv -> Async Err World UserConfig.

  (** [import vue from "@vitejs/plugin-vue"]; [None] is the omitted argument. *)
  Variable vue : option Options -> Sync Err World Plugin.
  (** [import { defineConfig } from "vite"]. *)
  Variable defineConfig : UserConfigFn -> UserConfigFn.

(** The object literal, evaluated in source order: [vue()] first, the
    remaining fields are constants. *)
Definition config_body : Async Err World UserConfig :=
  p <- call (vue None) ;;
  ret {| plugins := [PluginValue p];
         clearScreen := false;
         server := {| port := 1420;
                      strictPort := true;
                      watch := {| ignored := ["**/src-tauri/**"] |} |} |}.

(** [async () => ({ ... })]. *)
Definition factory : UserConfigFn :=
  async_arrow [] (fun _ => config_body).

(** [export default defineConfig(async () => ({ ... }))]. *)
Definition default_export : UserConfigFn := defineConfig factory.

End Provider.

Arguments PluginValue {Err World Plugin} p.
Arguments PluginDeferred {Err World Plugin} d.
Arguments Build_UserConfig {Err World Plugin} plugins clearScreen server.
Arguments plugins {Err World Plugin} u.
Arguments clearScreen {Err World Plugin} u.
Arguments server {Err World Plugin} u.
Arguments is_deferred {Err World Plugin} o.
Arguments fully_resolved {Err World Plugin} c.
Arguments config_body {Err World Plugin Options} vue w.
Arguments factory {Err World Plugin Options ConfigEnv} vue args w.
Arguments default_export {Err World Plugin Options ConfigEnv} vue defineConfig.

(** ** A stand-in host

    A small concrete collaborator on which the definitions run: a [vue] that
    records the working directory in its descriptor and throws when the
    single-file-component compiler is absent, and a [defineConfig] that hands
    back its argument.  It stands for no particular release of either
    package. *)

Module Sample.

Definition Err : Type := string.

Record World : Type := {
  cwd : string;
  compiler_installed : bool;
  stdout : list string
}.

Record Plugin : Type := { name : string; root : string }.

Record Options : Type := { isProduction : bool }.

Record ConfigEnv : Type := { command : string; mode : string }.

Definition vue (o : option Options) (w : World)
    : World * Completion Err Plugin :=
  if compiler_installed w
  then (w, Normal {| name := "vite:vue"; root := cwd w |})
  else (w, Throw "Failed to resolve vue/compiler-sfc").

Definition defineConfig (f : UserConfigFn Err World Plugin ConfigEnv)
    : UserConfigFn Err World Plugin ConfigEnv := f.

(** A checkout with its dependencies installed, and one without. *)
Definition ready : World :=
  {| cwd := "/work/rsblox"; compiler_installed := true; stdout := [] |}.

Definition bare : World :=
  {| cwd := "/work/rsblox"; compiler_installed := false; stdout := [] |}.

(** The same checkout later in the process, after some output. *)
Definition later : World :=
  {| cwd := "/work/rsblox"; compiler_installed := true;
     stdout := ["vite dev server running"] |}.

(** The scenario's object around the stand-in descriptor. *)
Definition ready_config : UserConfig Err World Plugin :=
  {| plugins := [PluginValue {| name := "vite:vue"; root := "/work/rsblox" |}];
     clearScreen := false;
     server := {| port := 1420;
                  strictPort := true;
                  watch := {| ignored := ["**/src-tauri/**"] |} |} |}.

Definition serve : ConfigEnv := {| command := "serve"; mode := "development" |}.
Definition build : ConfigEnv := {| command := "build"; mode := "production" |}.

End Sample.

(** A second stand-in [vue], with an effect: each call also writes a line,
    so that the calls made can be counted in the world they leave. *)

Module Noisy.

Definition vue (o : option Sample.Options) (w : Sample.World)
    : Sample.World * Completion Sample.Err Sample.Plugin :=
  ({| Sample.cwd := Sample.cwd w;
      Sample.compiler_installed := Sample.compiler_installed w;
      Sample.stdout := "vite:vue created" :: Sample.stdout w |},
   if Sample.compiler_installed w
   then Normal {| Sample.name := "vite:vue"; Sample.root := Sample.cwd w |}
   else Throw "Failed to resolve vue/compiler-sfc").

(** The process after a change of working directory. *)
Definition moved : Sample.World :=
  {| Sample.cwd := "/work/other";
     Sample.compiler_installed := true;
     Sample.stdout := [] |}.

Definition moved_config
    : UserConfig Sample.Err Sample.World Sample.Plugin :=
  {| plugins :=
       [PluginValue {| Sample.name := "vite:vue"; Sample.root := "/work/other" |}];
     clearScreen := false;
     server := {| port := 1420;
                  strictPort := true;
                  watch := {| ignored := ["**/src-tauri/**"] |} |} |}.

End Noisy.

(** ** Properties of the exported factory *)

Section Properties.

  Variables Err World Plugin Options ConfigEnv : Type.
  Variable vue : option Options -> Sync Err World Plugin.
  Variable defineConfig :
    UserConfigFn Err World Plugin ConfigEnv ->
    UserConfigFn Err World Plugin ConfigEnv.

  (** vite's [defineConfig] only fixes the type of its argument. *)
  Hypothesis defineConfig_returns_argument : forall f, defineConfig f = f.

(** [await] does park the body: [is_settled] tells the two cases apart. *)
Lemma await_suspends (A : Type) (p : Promise Err World A) (w : World) :
  is_settled (snd (await p w)) = false.
Proof. reflexivity. Qed.

(** The arrow function has no formal parameter: whatever it is called with,
    its body runs in the empty frame. *)
Lemma factory_ignores_arguments (args : list ConfigEnv) :
  factory vue args = config_body vue.
Proof. unfold factory, async_arrow. reflexivity. Qed.

(** One call of the factory is one call of [vue()], whose completion decides
    how the promise settles. *)
Lemma factory_unfold (args : list ConfigEnv) (w : World) :
  factory vue args w =
  (fst (vue None w),
   match snd (vue None w) with
   | Normal p =>
       Fulfilled
         {| plugins := [PluginValue p];
            clearScreen := false;
            server := {| port := 1420;
                         strictPort := true;
                         watch := {| ignored := ["**/src-tauri/**"] |} |} |}
   | Throw e => Rejected e
   end).
Proof.
  rewrite factory_ignores_arguments.
  unfold config_body, bind, call.
  destruct (vue None w) as [w' [p | e]]; reflexivity.
Qed.

Lemma default_export_unfold (args : list ConfigEnv) (w : World) :
  default_export vue defineConfig args w = factory vue args w.
Proof. unfold default_export. now rewrite defineConfig_returns_argument. Qed.

(** The world an invocation leaves is the world its call of [vue()] leaves. *)
Lemma default_export_world (args : list ConfigEnv) (w : World) :
  fst (default_export vue defineConfig args w) = fst (vue None w).
Proof. rewrite default_export_unfold, factory_unfold. reflexivity. Qed.

(** A fulfilled invocation: [vue()] returned a descriptor, and the object is
    the literal around it. *)
Lemma default_export_fulfilled (args : list ConfigEnv) (w w' : World)
    (cfg : UserConfig Err World Plugin) :
  default_export vue defineConfig args w = (w', Fulfilled cfg) ->
  exists p,
    vue None w = (w', Normal p) /\
    cfg = {| plugins := [PluginValue p];
             clearScreen := false;
             server := {| port := 1420;
                          strictPort := true;
                          watch := {| ignored := ["**/src-tauri/**"] |} |} |}.
Proof.
  rewrite default_export_unfold, factory_unfold.
  destruct (vue None w) as [w1 [p | e]] eqn:E; simpl; intros H.
  - inversion H; subst. exists p. split; reflexivity.
  - discriminate H.
Qed.

(** The job queue has nothing to run for a settled promise. *)
Lemma run_jobs_settled (A : Type) (jobs : nat) (w : World)
    (p : Promise Err World A) :
  is_settled p = true -> run_jobs jobs w p = (w, p).
Proof.
  destruct p as [a | e | k]; simpl; intros H.
  - now destruct jobs.
  - now destruct jobs.
  - discriminate H.
Qed.

(** The promise of an invocation is settled when the call returns. *)
Lemma default_export_settled (args : list ConfigEnv) (w : World) :
  is_settled (snd (default_export vue defineConfig args w)) = true.
Proof.
  rewrite default_export_unfold, factory_unfold. simpl.
  now destruct (snd (vue None w)).
Qed.

(** Two resolved objects differ at most in the descriptor they carry. *)
Lemma resolved_equal_iff_descriptors (args1 args2 : list ConfigEnv)
    (w1 w1' w2 w2' : World) (cfg1 cfg2 : UserConfig Err World Plugin) :
  default_export vue defineConfig args1 w1 = (w1', Fulfilled cfg1) ->
  default_export vue defineConfig args2 w2 = (w2', Fulfilled cfg2) ->
  (cfg1 = cfg2 <-> snd (vue None w1) = snd (vue None w2)).
Proof.
  intros H1 H2.
  apply default_export_fulfilled in H1. destruct H1 as (p1 & Hv1 & ->).
  apply default_export_fulfilled in H2. destruct H2 as (p2 & Hv2 & ->).
  rewrite Hv1, Hv2. simpl. split; intros H.
  - injection H as ->. reflexivity.
  - injection H as ->. reflexivity.
Qed.

(** When [vue()] returns, the invocation resolves at once, to the literal
    around the descriptor. *)
Lemma default_export_resolves (args : list ConfigEnv) (w w' : World)
    (p : Plugin) :
  vue None w = (w', Normal p) ->
  default_export vue defineConfig args w =
  (w', Fulfilled
         {| plugins := [PluginValue p];
             clearScreen := false;
             server := {| port := 1420;
                          strictPort := true;
                          watch := {| ignored := ["**/src-tauri/**"] |} |} |}).
Proof.
  intros Hvue.
  rewrite default_export_unfold, factory_unfold, Hvue. reflexivity.
Qed.

(** However long the host waits, an object it receives is the one the call
    itself produced. *)
Lemma default_export_later_fulfilled (args : list ConfigEnv) (w w' : World)
    (jobs : nat) (cfg : UserConfig Err World Plugin) :
  run_jobs jobs (fst (default_export vue defineConfig args w))
                    (snd (default_export vue defineConfig args w)) = (w', Fulfilled cfg) ->
  exists p,
    vue None w = (w', Normal p) /\
    cfg = {| plugins := [PluginValue p];
             clearScreen := false;
             server := {| port := 1420;
                          strictPort := true;
                          watch := {| ignored := ["**/src-tauri/**"] |} |} |}.
Proof.
  rewrite run_jobs_settled by apply default_export_settled.
  rewrite <- surjective_pairing.
  apply default_export_fulfilled.
Qed.


(** C2: every invocation whose call of [vue()] returns resolves, when the
    call returns, to an object with [server.port = 1420] and
    [server.strictPort = true]; and whatever object the host receives from an
    invocation, at once or after any number of jobs, has these two values. *)
Theorem resolved_port_is_strict_1420 (args : list ConfigEnv) (w : World) :
  (forall w' p,
     vue None w = (w', Normal p) ->
     exists cfg,
       default_export vue defineConfig args w = (w', Fulfilled cfg) /\
       port (server cfg) = 1420%Z /\ strictPort (server cfg) = true) /\
  (forall jobs w' cfg,
     run_jobs jobs (fst (default_export vue defineConfig args w))
                    (snd (default_export vue defineConfig args w)) = (w', Fulfilled cfg) ->
     port (server cfg) = 1420%Z /\ strictPort (server cfg) = true).
Proof.
  split.
  - intros w' p Hvue. eexists. split.
    + apply (default_export_resolves _ _ _ _ Hvue).
    + split; reflexivity.
  - intros jobs w' cfg H.
    apply default_export_later_fulfilled in H.
    destruct H as (p & _ & ->). split; reflexivity.
Qed.

(** C3: every invocation whose call of [vue] without an argument returns the
    descriptor [p] resolves to an object whose [plugins] is the one-element
    list of [p]; and whatever object the host receives from an invocation, at
    once or later, has a [plugins] of length 1 holding the descriptor that
    this invocation's call of [vue] without an argument returned. *)
Theorem resolved_plugins_single_vue_descriptor (args : list ConfigEnv)
    (w : World) :
  (forall w' p,
     vue None w = (w', Normal p) ->
     exists cfg,
       default_export vue defineConfig args w = (w', Fulfilled cfg) /\
       plugins cfg = [PluginValue p]) /\
  (forall jobs w' cfg,
     run_jobs jobs (fst (default_export vue defineConfig args w))
                    (snd (default_export vue defineConfig args w)) = (w', Fulfilled cfg) ->
     List.length (plugins cfg) = 1 /\
     exists p, vue None w = (w', Normal p) /\ plugins cfg = [PluginValue p]).
Proof.
  split.
  - intros w' p Hvue. eexists. split.
    + apply (default_export_resolves _ _ _ _ Hvue).
    + reflexivity.
  - intros jobs w' cfg H.
    destruct (default_export_later_fulfilled _ _ _ _ _ H) as (p & Hvue & Hcfg).
    rewrite Hcfg. simpl. split; [reflexivity | ].
    exists p. auto.
Qed.

(** C4: every invocation whose call of [vue()] returns resolves to an
    object whose [server.watch.ignored] is the one-element list
    ["**/src-tauri/**"]; and whatever object the host receives from an
    invocation, at once or later, has exactly that list: that pattern and no
    other. *)
Theorem resolved_watch_ignores_src_tauri (args : list ConfigEnv)
    (w : World) :
  (forall w' p,
     vue None w = (w', Normal p) ->
     exists cfg,
       default_export vue defineConfig args w = (w', Fulfilled cfg) /\
       ignored (watch (server cfg)) = ["**/src-tauri/**"]) /\
  (forall jobs w' cfg,
     run_jobs jobs (fst (default_export vue defineConfig args w))
                    (snd (default_export vue defineConfig args w)) = (w', Fulfilled cfg) ->
     ignored (watch (server cfg)) = ["**/src-tauri/**"] /\
     forall pat,
       In pat (ignored (watch (server cfg))) <-> pat = "**/src-tauri/**").
Proof.
  split.
  - intros w' p Hvue. eexists. split.
    + apply (default_export_resolves _ _ _ _ Hvue).
    + reflexivity.
  - intros jobs w' cfg H.
    destruct (default_export_later_fulfilled _ _ _ _ _ H) as (p & _ & Hcfg).
    subst cfg. cbn [server watch ignored]. split; [reflexivity | ].
    intros pat. cbn [In]. split.
    + intros [E | []]. now symmetry.
    + intros ->. now left.
Qed.

(** C5: every invocation whose call of [vue()] returns resolves to an
    object whose [clearScreen] is [false]; and whatever object the host
    receives from an invocation, at once or later, has [clearScreen] equal to
    [false]. *)
Theorem resolved_clear_screen_false (args : list ConfigEnv) (w : World) :
  (forall w' p,
     vue None w = (w', Normal p) ->
     exists cfg,
       default_export vue defineConfig args w = (w', Fulfilled cfg) /\
       clearScreen cfg = false) /\
  (forall jobs w' cfg,
     run_jobs jobs (fst (default_export vue defineConfig args w))
                    (snd (default_export vue defineConfig args w)) = (w', Fulfilled cfg) ->
     clearScreen cfg = false).
Proof.
  split.
  - intros w' p Hvue. eexists. split.
    + apply (default_export_resolves _ _ _ _ Hvue).
    + reflexivity.
  - intros jobs w' cfg H.
    destruct (default_export_later_fulfilled _ _ _ _ _ H) as (p & _ & Hcfg).
    now rewrite Hcfg.
Qed.

(** C6, with the condition it needs: two invocations, with whatever arguments and from
    whatever worlds of the process, whose calls of [vue()] return the
    descriptors [p1] and [p2], both resolve, and the two objects are equal
    exactly when [p1] and [p2] are: every other field is the same constant. *)
Theorem repeated_invocations_agree_iff_descriptors
    (args1 args2 : list ConfigEnv) (w1 w1' w2 w2' : World) (p1 p2 : Plugin) :
  vue None w1 = (w1', Normal p1) ->
  vue None w2 = (w2', Normal p2) ->
  exists cfg1 cfg2,
    default_export vue defineConfig args1 w1 = (w1', Fulfilled cfg1) /\
    default_export vue defineConfig args2 w2 = (w2', Fulfilled cfg2) /\
    (cfg1 = cfg2 <-> p1 = p2).
Proof.
  intros Hv1 Hv2.
  pose proof (default_export_resolves args1 _ _ _ Hv1) as H1.
  pose proof (default_export_resolves args2 _ _ _ Hv2) as H2.
  do 2 eexists. split; [exact H1 | split; [exact H2 | ]].
  rewrite (resolved_equal_iff_descriptors _ _ _ _ _ _ _ _ H1 H2).
  rewrite Hv1, Hv2. simpl. split; intros H.
  - now injection H.
  - now rewrite H.
Qed.

(** C7: the arguments the build tool supplies do not reach the result: from
    one world, any two argument lists give the same world and promise. *)
Theorem environment_noninterference (args1 args2 : list ConfigEnv)
    (w : World) :
  default_export vue defineConfig args1 w =
  default_export vue defineConfig args2 w.
Proof.
  rewrite !default_export_unfold.
  now rewrite !factory_ignores_arguments.
Qed.


(** C9: an invocation rejects with [e], leaving the world [w'], exactly when
    its call of [vue()] throws [e], leaving the world [w']: the exception is
    passed on as it is, [vue] is not called again, and no object is returned
    in its place. *)
Theorem rejects_iff_vue_throws (args : list ConfigEnv) (w w' : World)
    (e : Err) :
  default_export vue defineConfig args w = (w', Rejected e) <->
  vue None w = (w', Throw e).
Proof.
  rewrite default_export_unfold, factory_unfold.
  destruct (vue None w) as [w1 [p | e1]]; simpl; split; intros H;
    try discriminate H; congruence.
Qed.

(** C10: the promise an invocation returns is settled when the call
    returns; running the job queue changes nothing; and a configuration it is
    fulfilled with holds no deferred entry. *)
Theorem settled_without_suspension (args : list ConfigEnv) (w : World) :
  is_settled (snd (default_export vue defineConfig args w)) = true /\
  (forall jobs,
     run_jobs jobs (fst (default_export vue defineConfig args w))
                   (snd (default_export vue defineConfig args w)) =
     default_export vue defineConfig args w) /\
  (forall cfg,
     snd (default_export vue defineConfig args w) = Fulfilled cfg ->
     fully_resolved cfg = true).
Proof.
  split; [apply default_export_settled | split].
  - intros jobs.
    rewrite run_jobs_settled by apply default_export_settled.
    symmetry. apply surjective_pairing.
  - intros cfg Hcfg.
    destruct (default_export vue defineConfig args w) as [w' pr] eqn:E.
    simpl in Hcfg. subst pr.
    apply default_export_fulfilled in E.
    destruct E as (p & _ & ->). reflexivity.
Qed.

(** X1: with any argument list, an invocation fulfils with [cfg], leaving
    the world [w'], exactly when its call of [vue()] returns a descriptor [p],
    leaving [w'], and [cfg] is the literal object around [p]. *)
Theorem fulfils_iff_vue_returns (args : list ConfigEnv) (w w' : World)
    (cfg : UserConfig Err World Plugin) :
  default_export vue defineConfig args w = (w', Fulfilled cfg) <->
  exists p,
    vue None w = (w', Normal p) /\
    cfg = {| plugins := [PluginValue p];
             clearScreen := false;
             server := {| port := 1420;
                          strictPort := true;
                          watch := {| ignored := ["**/src-tauri/**"] |} |} |}.
Proof.
  split.
  - apply default_export_fulfilled.
  - intros (p & Hvue & ->).
    rewrite default_export_unfold, factory_unfold, Hvue. reflexivity.
Qed.

(** X2: the descriptor is built inside the arrow, so nothing is kept from
    one invocation to the next: a sequence of invocations, each started in the
    world the one before left, changes the world as the same number of
    successive calls of [vue()] does. *)
Theorem each_invocation_calls_vue_once (calls : list (list ConfigEnv))
    (w : World) :
  fold_left (fun w0 args => fst (default_export vue defineConfig args w0))
            calls w =
  Nat.iter (List.length calls) (fun w0 => fst (vue None w0)) w.
Proof.
  revert w. induction calls as [ | args calls IH]; intros w.
  - reflexivity.
  - cbn [fold_left List.length].
    rewrite Nat.iter_succ_r, IH, default_export_world.
    reflexivity.
Qed.

(** X3: the object carries the descriptor of its own invocation: when two
    invocations resolve and their calls of [vue()] returned different
    descriptors, the two objects differ. *)
Theorem different_descriptors_different_objects
    (args1 args2 : list ConfigEnv) (w1 w1' w2 w2' : World)
    (cfg1 cfg2 : UserConfig Err World Plugin) :
  default_export vue defineConfig args1 w1 = (w1', Fulfilled cfg1) ->
  default_export vue defineConfig args2 w2 = (w2', Fulfilled cfg2) ->
  snd (vue None w1) <> snd (vue None w2) ->
  cfg1 <> cfg2.
Proof.
  intros H1 H2 Hdiff Heq.
  apply Hdiff.
  apply (resolved_equal_iff_descriptors _ _ _ _ _ _ _ _ H1 H2).
  exact Heq.
Qed.

End Properties.

(** ** The properties on the stand-in host

    Each statement above, run on [Sample]: its hypotheses hold there by
    evaluation. *)


Lemma resolved_port_is_strict_1420_witness :
  exists cfg,
    default_export Sample.vue Sample.defineConfig [Sample.serve] Sample.ready =
    (Sample.ready, Fulfilled cfg) /\
    port (server cfg) = 1420%Z /\ strictPort (server cfg) = true.
Proof.
  apply (proj1 (resolved_port_is_strict_1420 _ _ _ _ _
                  Sample.vue Sample.defineConfig (fun f => eq_refl)
                  [Sample.serve] Sample.ready)
           Sample.ready
           {| Sample.name := "vite:vue"; Sample.root := "/work/rsblox" |}).
  reflexivity.
Defined.

Lemma resolved_plugins_single_vue_descriptor_witness :
  exists cfg,
    default_export Sample.vue Sample.defineConfig [Sample.build] Sample.later =
    (Sample.later, Fulfilled cfg) /\
    plugins cfg =
    [PluginValue {| Sample.name := "vite:vue"; Sample.root := "/work/rsblox" |}].
Proof.
  apply (proj1 (resolved_plugins_single_vue_descriptor _ _ _ _ _
                  Sample.vue Sample.defineConfig (fun f => eq_refl)
                  [Sample.build] Sample.later)
           Sample.later
           {| Sample.name := "vite:vue"; Sample.root := "/work/rsblox" |}).
  reflexivity.
Defined.

Lemma resolved_watch_ignores_src_tauri_witness :
  exists cfg,
    default_export Sample.vue Sample.defineConfig [Sample.serve] Sample.ready =
    (Sample.ready, Fulfilled cfg) /\
    ignored (watch (server cfg)) = ["**/src-tauri/**"].
Proof.
  apply (proj1 (resolved_watch_ignores_src_tauri _ _ _ _ _
                  Sample.vue Sample.defineConfig (fun f => eq_refl)
                  [Sample.serve] Sample.ready)
           Sample.ready
           {| Sample.name := "vite:vue"; Sample.root := "/work/rsblox" |}).
  reflexivity.
Defined.

Lemma resolved_clear_screen_false_witness :
  exists cfg,
    default_export Sample.vue Sample.defineConfig [Sample.serve] Sample.ready =
    (Sample.ready, Fulfilled cfg) /\
    clearScreen cfg = false.
Proof.
  apply (proj1 (resolved_clear_screen_false _ _ _ _ _
                  Sample.vue Sample.defineConfig (fun f => eq_refl)
                  [Sample.serve] Sample.ready)
           Sample.ready
           {| Sample.name := "vite:vue"; Sample.root := "/work/rsblox" |}).
  reflexivity.
Defined.

Lemma repeated_invocations_agree_iff_descriptors_witness :
  exists cfg1 cfg2,
    default_export Sample.vue Sample.defineConfig [Sample.serve] Sample.ready =
    (Sample.ready, Fulfilled cfg1) /\
    default_export Sample.vue Sample.defineConfig [Sample.build] Sample.later =
    (Sample.later, Fulfilled cfg2) /\
    (cfg1 = cfg2 <->
     {| Sample.name := "vite:vue"; Sample.root := "/work/rsblox" |} =
     {| Sample.name := "vite:vue"; Sample.root := "/work/rsblox" |}).
Proof.
  apply (repeated_invocations_agree_iff_descriptors _ _ _ _ _
           Sample.vue Sample.defineConfig (fun f => eq_refl)
           [Sample.serve] [Sample.build]
           Sample.ready Sample.ready Sample.later Sample.later);
    reflexivity.
Defined.

Lemma environment_noninterference_witness :
  default_export Sample.vue Sample.defineConfig [] Sample.ready =
  default_export Sample.vue Sample.defineConfig [Sample.build; Sample.serve]
    Sample.ready.
Proof.
  apply (environment_noninterference _ _ _ _ _
           Sample.vue Sample.defineConfig (fun f => eq_refl)).
Defined.


Lemma rejects_iff_vue_throws_witness :
  Sample.vue None Sample.bare =
  (Sample.bare, Throw "Failed to resolve vue/compiler-sfc") /\
  default_export Sample.vue Sample.defineConfig [Sample.serve] Sample.bare =
  (Sample.bare, Rejected "Failed to resolve vue/compiler-sfc").
Proof.
  split; [reflexivity | ].
  apply (proj2 (rejects_iff_vue_throws _ _ _ _ _
                  Sample.vue Sample.defineConfig (fun f => eq_refl)
                  [Sample.serve] Sample.bare Sample.bare
                  "Failed to resolve vue/compiler-sfc")).
  reflexivity.
Defined.

Lemma settled_without_suspension_witness :
  is_settled
    (snd (default_export Sample.vue Sample.defineConfig [Sample.serve]
            Sample.ready)) = true /\
  fully_resolved Sample.ready_config = true.
Proof.
  destruct (settled_without_suspension _ _ _ _ _
              Sample.vue Sample.defineConfig (fun f => eq_refl)
              [Sample.serve] Sample.ready) as (Hs & _ & Hr).
  split; [exact Hs | ].
  apply Hr. reflexivity.
Defined.

Lemma fulfils_iff_vue_returns_witness :
  Sample.vue None Sample.later =
  (Sample.later,
   Normal {| Sample.name := "vite:vue"; Sample.root := "/work/rsblox" |}) /\
  default_export Sample.vue Sample.defineConfig [Sample.build; Sample.serve]
    Sample.later =
  (Sample.later, Fulfilled Sample.ready_config).
Proof.
  split; [reflexivity | ].
  apply (proj2 (fulfils_iff_vue_returns _ _ _ _ _
                  Sample.vue Sample.defineConfig (fun f => eq_refl)
                  [Sample.build; Sample.serve] Sample.later Sample.later
                  Sample.ready_config)).
  exists {| Sample.name := "vite:vue"; Sample.root := "/work/rsblox" |}.
  split; reflexivity.
Defined.

Lemma each_invocation_calls_vue_once_witness :
  Sample.stdout
    (fold_left
       (fun w0 args =>
          fst (default_export Noisy.vue Sample.defineConfig args w0))
       [[]; [Sample.serve]; [Sample.build; Sample.serve]] Sample.ready) =
  ["vite:vue created"; "vite:vue created"; "vite:vue created"].
Proof.
  rewrite (each_invocation_calls_vue_once _ _ _ _ _
             Noisy.vue Sample.defineConfig (fun f => eq_refl)).
  reflexivity.
Defined.

Lemma different_descriptors_different_objects_witness :
  snd (Sample.vue None Sample.ready) <> snd (Sample.vue None Noisy.moved) /\
  Sample.ready_config <> Noisy.moved_config.
Proof.
  assert (Hdiff : snd (Sample.vue None Sample.ready) <>
                  snd (Sample.vue None Noisy.moved))
    by (simpl; intros H; discriminate H).
  split; [exact Hdiff | ].
  apply (different_descriptors_different_objects _ _ _ _ _
           Sample.vue Sample.defineConfig (fun f => eq_refl)
           [] [Sample.serve]
           Sample.ready Sample.ready Noisy.moved Noisy.moved);
    [reflexivity | reflexivity | exact Hdiff].
Defined.

(** ** Where the unconditional readings fail *)

(** C6 without a condition on [vue()]: after a change of working directory the stand-in
    [vue] builds another descriptor, and two invocations in one process
    resolve to different objects. *)
Lemma repeated_invocations_can_differ :
  default_export Sample.vue Sample.defineConfig [] Sample.ready =
  (Sample.ready, Fulfilled Sample.ready_config) /\
  default_export Sample.vue Sample.defineConfig [] Noisy.moved =
  (Noisy.moved, Fulfilled Noisy.moved_config) /\
  Sample.ready_config <> Noisy.moved_config.
Proof.
  split; [reflexivity | split; [reflexivity | ]].
  unfold Sample.ready_config, Noisy.moved_config.
  intros H. discriminate H.
Qed.

